(** * Signing roots and signature domains
    (beacon-chain/core/helpers/signing_root.go)

    The Go file derives two values for a proof-of-stake beacon chain: the
    32-byte signature [domain] of a domain type and a fork, and the signing
    root that binds an object to a domain.  Both are obtained from an SSZ
    hashing engine, [ssz.HashTreeRoot], that lives outside the package, and
    [ComputeDomain] reads two defaults from [params.BeaconConfig()].

    The embedding keeps the Go data as it is written: bytes are [Byte.byte],
    a sized array [[n]byte] is a vector of length [n], a slice [[]byte] is
    either nil or a list of bytes, a Go result [(T, error)] is a pair whose
    second component is [None] for a nil error.  The two outside services
    are calls of a small program monad, so that what a function hands to the
    hashing engine can be read off its program. *)

From Stdlib Require Import List Arith Lia Strings.Byte String.
Set Warnings "-stdlib-vector".
From Stdlib Require Vector.
From ExtLib Require Import Structures.Monad.
Import ListNotations.
Import MonadNotation.
Local Open Scope monad_scope.

(** ** Bytes, arrays and slices *)

(** [[n]byte]: exactly [n] bytes, the length is part of the type. *)
Definition array (n : nat) : Type := Vector.t byte n.

(** [[n]byte{}]: the zero value of an array. *)
Definition zero_array (n : nat) : array n := Vector.const x00 n.

(** [[]byte]: a slice is nil or holds a sequence of bytes of any length.  A nil
    slice and an empty non-nil slice are distinct values ([s == nil]).  Spare
    capacity behind the length is not modelled: a slice's capacity is taken to
    be its length, as it is for the one slice the source reslices (the slice
    of a whole array). *)
Inductive slice : Type :=
| nil_slice
| slice_of (elems : list byte).

Definition bytes (s : slice) : list byte :=
  match s with
  | nil_slice => []
  | slice_of l => l
  end.

(** [len(s)] *)
Definition len (s : slice) : nat := List.length (bytes s).

(** [s == nil] *)
Definition is_nil (s : slice) : bool :=
  match s with
  | nil_slice => true
  | slice_of _ => false
  end.

(** [a[:]]: the whole array as a slice, never nil. *)
Definition array_slice {n : nat} (a : array n) : slice :=
  slice_of (Vector.to_list a).

(** [append(s, xs...)]: appending nothing returns [s] itself, so nil stays
    nil; otherwise the result is a non-nil slice. *)
Definition append (s : slice) (xs : list byte) : slice :=
  match s, xs with
  | nil_slice, [] => nil_slice
  | nil_slice, _ :: _ => slice_of xs
  | slice_of l, _ => slice_of (l ++ xs)
  end.

(** [copy(dst[:], src)]: overwrites the first [min(len(dst), len(src))] bytes
    of the array [dst] with those of [src]; the rest of [dst] is kept.  The
    count that Go's [copy] returns is dropped, as at its one call site. *)
Fixpoint copy {n : nat} (dst : array n) (src : list byte) : array n :=
  match dst in Vector.t _ m return array m with
  | Vector.nil _ => Vector.nil _
  | Vector.cons _ d m dst' =>
      match src with
      | [] => Vector.cons _ d m dst'
      | s :: src' => Vector.cons _ s m (copy dst' src')
      end
  end.

(** ** Records handed to the hashing engine

    [SigningRoot] and [ForkData] are the protobuf messages of
    proto/beacon/p2p/v1; the source sets the two fields written here, both of
    Go type [[]byte]. *)
Record SigningRoot : Type := mkSigningRoot
  { ObjectRoot : slice;
    Domain : slice }.

Record ForkData : Type := mkForkData
  { CurrentVersion : slice;
    GenesisValidatorsRoot : slice }.

(** Modelled from the spec: the configuration type behind
    [params.BeaconConfig()] is declared in shared/params, outside this file.
    The source reads two of its fields: [GenesisForkVersion], which it assigns
    to a [[]byte], and [ZeroHash], an array it slices with [[:]] and which the
    specification gives as 32 bytes.  Their values are not fixed here: the
    world of a run supplies them. *)
Record BeaconChainConfig : Type := mkBeaconChainConfig
  { GenesisForkVersion : slice;
    ZeroHash : array 32 }.

(** What a finished Go call leaves: its results, or a run-time panic. *)
Inductive exit (A : Type) : Type :=
| Returns (a : A)
| Panics.
Arguments Returns {A} a.
Arguments Panics {A}.

(** [ForkVersionByteLength] length of fork version byte array. *)
Definition ForkVersionByteLength : nat := 4.

(** [DomainByteLength] length of domain byte array. *)
Definition DomainByteLength : nat := 4.

Section SigningRootGo.

(** Dynamic values other than the two messages, and Go's non-nil [error]s. *)
Variables (Other error : Type).

(** [interface{}]: the argument of [ssz.HashTreeRoot].  The source passes it a
    [*SigningRoot], a [*ForkData], or the caller's object, which may be any
    value at all. *)
Inductive iface : Type :=
| SigningRootPtr (c : SigningRoot)
| ForkDataPtr (f : ForkData)
| OtherValue (o : Other).

(** A Go result [([32]byte, error)]; [None] is the nil error. *)
Definition root_result : Type := (array 32 * option error)%type.

(** Programs over the two outside services.  [HashTreeRootCall v k] calls
    [ssz.HashTreeRoot(v)] and goes on with [k] on its two results;
    [BeaconConfigCall k] reads [params.BeaconConfig()]. *)
Inductive prog (A : Type) : Type :=
| Ret (a : A)
| Panic
| HashTreeRootCall (v : iface) (k : root_result -> prog A)
| BeaconConfigCall (k : BeaconChainConfig -> prog A).
Arguments Ret {A} a.
Arguments Panic {A}.
Arguments HashTreeRootCall {A} v k.
Arguments BeaconConfigCall {A} k.

Fixpoint bind_prog {A B : Type} (p : prog A) (f : A -> prog B) : prog B :=
  match p with
  | Ret a => f a
  | Panic => Panic
  | HashTreeRootCall v k => HashTreeRootCall v (fun r => bind_prog (k r) f)
  | BeaconConfigCall k => BeaconConfigCall (fun c => bind_prog (k c) f)
  end.

#[global] Instance Monad_prog : Monad prog :=
  {| ret := @Ret; bind := @bind_prog |}.

(** [ssz.HashTreeRoot(v)] *)
Definition HashTreeRoot (v : iface) : prog root_result :=
  HashTreeRootCall v Ret.

(** [params.BeaconConfig()] *)
Definition BeaconConfig : prog BeaconChainConfig :=
  BeaconConfigCall Ret.

(** [s[:h]] on a slice: a run-time panic when [h] is beyond the capacity, here
    the length.  Go allows [h] up to a capacity that may exceed the length, so
    a run that returns here returns the same in Go. *)
Definition slice_to (s : slice) (h : nat) : prog slice :=
  if h <=? len s then
    match s with
    | nil_slice => ret nil_slice
    | slice_of l => ret (slice_of (firstn h l))
    end
  else Panic.

(** ** The source functions *)

(** [func ComputeSigningRoot(object interface{}, domain []byte) ([32]byte, error)] *)
Definition ComputeSigningRoot (object : iface) (domain : slice) : prog root_result :=
  '(objRoot, err) <- HashTreeRoot object ;;
  match err with
  | Some e => ret (zero_array 32, Some e)
  | None =>
      let container :=
        SigningRootPtr {| ObjectRoot := array_slice objRoot; Domain := domain |} in
      HashTreeRoot container
  end.

(** [func domain(domainType [DomainByteLength]byte, forkDataRoot []byte) []byte] *)
Definition domain (domainType : array DomainByteLength) (forkDataRoot : slice)
  : prog slice :=
  let b := slice_of [] in
  let b := append b (firstn 4 (Vector.to_list domainType)) in
  tail <- slice_to forkDataRoot 28 ;;
  let b := append b (bytes tail) in
  ret b.

(** [func computeForkDataRoot(version []byte, root []byte) ([32]byte, error)] *)
Definition computeForkDataRoot (version root : slice) : prog root_result :=
  '(r, err) <- HashTreeRoot
                 (ForkDataPtr {| CurrentVersion := version;
                                 GenesisValidatorsRoot := root |}) ;;
  match err with
  | Some e => ret (zero_array 32, Some e)
  | None => ret (r, None)
  end.

(** [func ComputeDomain(domainType [DomainByteLength]byte, forkVersion []byte,
    genesisValidatorsRoot []byte) ([]byte, error)] *)
Definition ComputeDomain (domainType : array DomainByteLength)
  (forkVersion genesisValidatorsRoot : slice) : prog (slice * option error) :=
  forkVersion <-
    (if is_nil forkVersion
     then cfg <- BeaconConfig ;; ret (GenesisForkVersion cfg)
     else ret forkVersion) ;;
  genesisValidatorsRoot <-
    (if is_nil genesisValidatorsRoot
     then cfg <- BeaconConfig ;; ret (array_slice (ZeroHash cfg))
     else ret genesisValidatorsRoot) ;;
  let forkBytes := zero_array ForkVersionByteLength in
  let forkBytes := copy forkBytes (bytes forkVersion) in
  '(forkDataRoot, err) <- computeForkDataRoot forkVersion genesisValidatorsRoot ;;
  match err with
  | Some e => ret (nil_slice, Some e)
  | None =>
      d <- domain domainType (array_slice forkDataRoot) ;;
      ret (d, None)
  end.

(** ** Running a program *)

(** The outside world of a call: the hashing engine as a function of the value
    it is given, and the configuration in force. *)
Record world : Type := mkWorld
  { ssz_HashTreeRoot : iface -> root_result;
    params_BeaconConfig : BeaconChainConfig }.

Fixpoint run (w : world) {A : Type} (p : prog A) : exit A :=
  match p with
  | Ret a => Returns a
  | Panic => Panics
  | HashTreeRootCall v k => run w (k (ssz_HashTreeRoot w v))
  | BeaconConfigCall k => run w (k (params_BeaconConfig w))
  end.

(** The values handed to the hashing engine during a run, in call order. *)
Fixpoint engine_inputs (w : world) {A : Type} (p : prog A) : list iface :=
  match p with
  | Ret _ => []
  | Panic => []
  | HashTreeRootCall v k => v :: engine_inputs w (k (ssz_HashTreeRoot w v))
  | BeaconConfigCall k => engine_inputs w (k (params_BeaconConfig w))
  end.

End SigningRootGo.

Arguments SigningRootPtr {Other} c.
Arguments ForkDataPtr {Other} f.
Arguments OtherValue {Other} o.
Arguments Ret {Other error A} a.
Arguments Panic {Other error A}.
Arguments HashTreeRootCall {Other error A} v k.
Arguments BeaconConfigCall {Other error A} k.
Arguments bind_prog {Other error A B} p f.
Arguments HashTreeRoot {Other error} v.
Arguments BeaconConfig {Other error}.
Arguments slice_to {Other error} s h.
Arguments ComputeSigningRoot {Other error} object domain.
Arguments domain {Other error} domainType forkDataRoot.
Arguments computeForkDataRoot {Other error} version root.
Arguments ComputeDomain {Other error} domainType forkVersion genesisValidatorsRoot.
Arguments mkWorld {Other error} _ _.
Arguments ssz_HashTreeRoot {Other error} w v.
Arguments params_BeaconConfig {Other error} w.
Arguments run {Other error} w {A} p.
Arguments engine_inputs {Other error} w {A} p.

(** ** An engine that keeps state

    The hashing engine and the configuration provider are outside this
    package and may hold state of their own.  A [machine] answers each call
    from its current state and moves to a next one; [exec] threads that state
    through a program.  The programs themselves have no other access to it. *)
Record machine (Other error S : Type) : Type := mkMachine
  { hash_step : S -> iface Other -> root_result error * S;
    config_step : S -> BeaconChainConfig * S }.
Arguments mkMachine {Other error S} _ _.
Arguments hash_step {Other error S} m s v.
Arguments config_step {Other error S} m s.

Fixpoint exec {Other error S A : Type} (m : machine Other error S)
  (p : prog Other error A) (s : S) : exit A * S :=
  match p with
  | Ret a => (Returns a, s)
  | Panic => (Panics, s)
  | HashTreeRootCall v k =>
      let '(r, s') := hash_step m s v in exec m (k r) s'
  | BeaconConfigCall k =>
      let '(c, s') := config_step m s in exec m (k c) s'
  end.

(** The machine is deterministic with answers [w]: whatever its state, it
    answers a call as the world [w] does. *)
Definition answers_as {Other error S : Type} (m : machine Other error S)
  (w : world Other error) : Prop :=
  (forall s v, fst (hash_step m s v) = ssz_HashTreeRoot w v) /\
  (forall s, fst (config_step m s) = params_BeaconConfig w).

(** A caller that makes the same call two times in a row and keeps both
    results. *)
Definition twice {Other error A : Type} (p : prog Other error A)
  : prog Other error (A * A) :=
  first <- p ;;
  second <- p ;;
  ret (first, second).

(** ** The operations as the specification words them *)

(** A result that is either a value or a [ComputationError]. *)
Definition outcome (error A : Type) : Type := (A + error)%type.

(** The Go pair read as such a result: a non-nil error is the failure. *)
Definition outcome_of {error A : Type} (r : A * option error) : outcome error A :=
  match snd r with
  | Some e => inr e
  | None => inl (fst r)
  end.

(** [hashTreeRoot(x)] of the specification: the engine's digest or failure. *)
Definition hashTreeRoot {Other error : Type} (w : world Other error)
  (v : iface Other) : outcome error (array 32) :=
  outcome_of (ssz_HashTreeRoot w v).

(** [hashTreeRoot({ objectRoot: hashTreeRoot(object), domain })], a failure of
    the inner digest being the failure of the whole. *)
Definition spec_signing_root {Other error : Type} (w : world Other error)
  (object : iface Other) (dom : slice) : outcome error (array 32) :=
  match hashTreeRoot w object with
  | inl objectRoot =>
      hashTreeRoot w
        (SigningRootPtr {| ObjectRoot := array_slice objectRoot; Domain := dom |})
  | inr e => inr e
  end.

(** The defaulting policy: an absent (nil) fork version is the genesis fork
    version, an absent genesis validators root is the zero hash. *)
Definition resolved_fork_version (cfg : BeaconChainConfig) (forkVersion : slice)
  : slice :=
  if is_nil forkVersion then GenesisForkVersion cfg else forkVersion.

Definition resolved_genesis_root (cfg : BeaconChainConfig)
  (genesisValidatorsRoot : slice) : slice :=
  if is_nil genesisValidatorsRoot then array_slice (ZeroHash cfg)
  else genesisValidatorsRoot.

(** The fork-data record [{ currentVersion, genesisValidatorsRoot }] after
    defaulting, as a value for the engine. *)
Definition fork_data_record {Other : Type} (cfg : BeaconChainConfig)
  (forkVersion genesisValidatorsRoot : slice) : iface Other :=
  ForkDataPtr
    {| CurrentVersion := resolved_fork_version cfg forkVersion;
       GenesisValidatorsRoot := resolved_genesis_root cfg genesisValidatorsRoot |}.

(** ** A concrete world to run the functions on

    A stand-in engine over objects numbered by [nat]: it packs the fields of a
    record behind a tag byte into 32 bytes, and rejects object [0].  It is not
    SSZ; it only lets the definitions above be evaluated on inputs. *)
Module Sample.

Definition pack (l : list byte) : array 32 := copy (zero_array 32) l.

Definition engine (v : iface nat) : root_result string :=
  match v with
  | OtherValue 0 => (pack [xff; xee], Some "unsupported object"%string)
  | OtherValue (S n) => (pack (x4f :: repeat x11 (S n)), None)
  | SigningRootPtr c =>
      if 40 <? len (Domain c)
      then (pack [xdd], Some "domain too long"%string)
      else (pack (x53 :: firstn 8 (bytes (ObjectRoot c)) ++ bytes (Domain c)), None)
  | ForkDataPtr f =>
      (pack (x46 :: bytes (CurrentVersion f) ++ bytes (GenesisValidatorsRoot f)),
       None)
  end.

Definition config : BeaconChainConfig :=
  {| GenesisForkVersion := slice_of [x00; x00; x00; x00];
     ZeroHash := zero_array 32 |}.

Definition w : world nat string := mkWorld engine config.

(** The same engine behind a call counter: its state changes with every call,
    its answers do not. *)
Definition counting : machine nat string nat :=
  mkMachine (fun s v => (engine v, S s)) (fun s => (config, S s)).

Definition domainType : array DomainByteLength :=
  copy (zero_array DomainByteLength) [x01; x00; x00; x00].

Definition forkVersion5 : slice := slice_of [x01; x02; x03; x04; x05].

Definition root31 : slice := slice_of (repeat x22 31).

(** An outside world that is deterministic only in part: the engine's digest
    of object [7] and the configured genesis fork version change with every
    call made. *)
Definition flaky : machine nat string nat :=
  mkMachine
    (fun s v =>
       match v with
       | OtherValue 7 => ((pack (repeat x07 s), None), S s)
       | _ => (engine v, S s)
       end)
    (fun s =>
       ({| GenesisForkVersion := slice_of (repeat x09 s);
           ZeroHash := zero_array 32 |}, S s)).

End Sample.

(** Unfolds the monad's operations and the two interpreters, and nothing of
    the list functions. *)
Ltac run_steps :=
  cbn [bind ret Monad_prog bind_prog run engine_inputs HashTreeRoot BeaconConfig
       is_nil fst snd].

(** ** Running programs: general facts *)

Section RunFacts.

Variables (Other error : Type).
Variable w : world Other error.

Lemma run_bind (A B : Type) (p : prog Other error A) (f : A -> prog Other error B) :
  run w (bind_prog p f) =
  match run w p with
  | Returns a => run w (f a)
  | Panics => Panics
  end.
Proof.
  induction p as [a | | v k IH | k IH]; simpl; auto.
Qed.

Lemma engine_inputs_bind (A B : Type) (p : prog Other error A)
  (f : A -> prog Other error B) :
  engine_inputs w (bind_prog p f) =
  engine_inputs w p ++
  match run w p with
  | Returns a => engine_inputs w (f a)
  | Panics => []
  end.
Proof.
  induction p as [a | | v k IH | k IH]; simpl; auto.
  now rewrite IH.
Qed.

Lemma exec_answers_as (S A : Type) (m : machine Other error S)
  (p : prog Other error A) :
  answers_as m w -> forall s, fst (exec m p s) = run w p.
Proof.
  intros [Hh Hc].
  induction p as [a | | v k IH | k IH]; intros s; simpl; auto.
  - specialize (Hh s v). destruct (hash_step m s v) as [r s']. simpl in Hh.
    subst r. apply IH.
  - specialize (Hc s). destruct (config_step m s) as [c s']. simpl in Hc.
    subst c. apply IH.
Qed.

End RunFacts.

(** ** What each function does on a run *)

Section FunctionFacts.

Variables (Other error : Type).
Variable w : world Other error.

Lemma len_array_slice (n : nat) (a : array n) : len (array_slice a) = n.
Proof.
  unfold len, array_slice, bytes. apply Vector.length_to_list.
Qed.

Lemma firstn_domainType (dt : array DomainByteLength) :
  firstn 4 (Vector.to_list dt) = Vector.to_list dt.
Proof.
  apply firstn_all2. rewrite Vector.length_to_list.
  unfold DomainByteLength. lia.
Qed.

Lemma slice_to_inputs (s : slice) (h : nat) :
  engine_inputs w (slice_to (Other := Other) (error := error) s h) = [].
Proof.
  unfold slice_to. destruct (h <=? len s); [destruct s |]; reflexivity.
Qed.

(** On the slice of a whole 32-byte array [domain] does not panic. *)
Lemma domain_run (dt : array DomainByteLength) (root : array 32) :
  run w (domain dt (array_slice root)) =
  Returns (slice_of (Vector.to_list dt ++ firstn 28 (Vector.to_list root))).
Proof.
  unfold domain, slice_to. rewrite len_array_slice.
  change (28 <=? 32) with true. unfold array_slice. run_steps.
  cbn [append bytes app]. now rewrite firstn_domainType.
Qed.

Lemma domain_inputs (dt : array DomainByteLength) (s : slice) :
  engine_inputs w (domain dt s) = [].
Proof.
  unfold domain. run_steps. rewrite engine_inputs_bind, slice_to_inputs.
  destruct (run w (slice_to s 28)); reflexivity.
Qed.

Lemma computeForkDataRoot_run (version root : slice) :
  run w (computeForkDataRoot version root) =
  match ssz_HashTreeRoot w (ForkDataPtr (mkForkData version root)) with
  | (r, None) => Returns (r, None)
  | (_, Some e) => Returns (zero_array 32, Some e)
  end.
Proof.
  unfold computeForkDataRoot. run_steps.
  destruct (ssz_HashTreeRoot w _) as [r [e |]]; reflexivity.
Qed.

Lemma computeForkDataRoot_inputs (version root : slice) :
  engine_inputs w (computeForkDataRoot version root) =
  [ForkDataPtr (mkForkData version root)].
Proof.
  unfold computeForkDataRoot. run_steps.
  destruct (ssz_HashTreeRoot w _) as [r [e |]]; reflexivity.
Qed.

Lemma ComputeDomain_run (dt : array DomainByteLength) (fv gr : slice) :
  run w (ComputeDomain dt fv gr) =
  match ssz_HashTreeRoot w (fork_data_record (params_BeaconConfig w) fv gr) with
  | (root, None) =>
      Returns (slice_of (Vector.to_list dt ++ firstn 28 (Vector.to_list root)), None)
  | (_, Some e) => Returns (nil_slice, Some e)
  end.
Proof.
  unfold ComputeDomain, computeForkDataRoot, fork_data_record,
    resolved_fork_version, resolved_genesis_root.
  destruct fv, gr; run_steps;
    destruct (ssz_HashTreeRoot w _) as [root [e |]]; run_steps;
    try reflexivity; now rewrite run_bind, domain_run.
Qed.

Lemma ComputeDomain_inputs (dt : array DomainByteLength) (fv gr : slice) :
  engine_inputs w (ComputeDomain dt fv gr) =
  [fork_data_record (params_BeaconConfig w) fv gr].
Proof.
  unfold ComputeDomain, computeForkDataRoot, fork_data_record,
    resolved_fork_version, resolved_genesis_root.
  destruct fv, gr; run_steps;
    destruct (ssz_HashTreeRoot w _) as [root [e |]]; run_steps;
    try reflexivity; now rewrite engine_inputs_bind, domain_inputs, domain_run.
Qed.

Lemma ComputeSigningRoot_run (object : iface Other) (dom : slice) :
  run w (ComputeSigningRoot object dom) =
  match ssz_HashTreeRoot w object with
  | (objRoot, None) =>
      Returns (ssz_HashTreeRoot w
                 (SigningRootPtr (mkSigningRoot (array_slice objRoot) dom)))
  | (_, Some e) => Returns (zero_array 32, Some e)
  end.
Proof.
  unfold ComputeSigningRoot. run_steps.
  destruct (ssz_HashTreeRoot w object) as [objRoot [e |]]; reflexivity.
Qed.

Lemma ComputeSigningRoot_inputs (object : iface Other) (dom : slice) :
  engine_inputs w (ComputeSigningRoot object dom) =
  object ::
  match ssz_HashTreeRoot w object with
  | (objRoot, None) => [SigningRootPtr (mkSigningRoot (array_slice objRoot) dom)]
  | (_, Some _) => []
  end.
Proof.
  unfold ComputeSigningRoot. run_steps.
  destruct (ssz_HashTreeRoot w object) as [objRoot [e |]]; reflexivity.
Qed.

Lemma resolved_fork_version_idem (cfg : BeaconChainConfig) :
  resolved_fork_version cfg (GenesisForkVersion cfg) = GenesisForkVersion cfg.
Proof.
  unfold resolved_fork_version.
  now destruct (GenesisForkVersion cfg).
Qed.

(** [copy] into the zero array always yields an array of the array's length,
    so its slice differs from any source of another length. *)
Lemma copy_slice_differs (n : nat) (src : list byte) :
  List.length src <> n ->
  slice_of src <> array_slice (copy (zero_array n) src).
Proof.
  intros Hlen Heq. apply Hlen.
  apply (f_equal len) in Heq. rewrite len_array_slice in Heq. exact Heq.
Qed.

End FunctionFacts.

(** ** Concrete runs *)

Example domain_of_defaults :
  run Sample.w (ComputeDomain Sample.domainType nil_slice nil_slice) =
  Returns (slice_of ([x01; x00; x00; x00] ++ [x46; x00; x00; x00; x00] ++ repeat x00 23),
           None).
Proof. vm_compute. reflexivity. Qed.

Example domain_of_31_byte_root :
  run Sample.w (ComputeDomain Sample.domainType Sample.forkVersion5 Sample.root31) =
  Returns (slice_of ([x01; x00; x00; x00] ++ [x46; x01; x02; x03; x04; x05]
                     ++ repeat x22 22),
           None).
Proof. vm_compute. reflexivity. Qed.

Example signing_root_of_object_3 :
  run Sample.w (ComputeSigningRoot (OtherValue 3) (slice_of [xaa; xbb])) =
  Returns (Sample.pack [x53; x4f; x11; x11; x11; x00; x00; x00; x00; xaa; xbb], None).
Proof. vm_compute. reflexivity. Qed.

Example copy_pads_and_truncates :
  Vector.to_list (copy (zero_array 4) [x09]) = [x09; x00; x00; x00] /\
  Vector.to_list (copy (zero_array 4) [x01; x02; x03; x04; x05]) = [x01; x02; x03; x04].
Proof. split; reflexivity. Qed.

(** ** The domain *)

(** C1: whenever the engine succeeds on the fork-data record of the (defaulted)
    fork version and genesis validators root, [ComputeDomain] returns a 32-byte
    slice with a nil error; its bytes 0-3 are the domain type and its bytes
    4-31 the first 28 bytes of the fork-data root, whose last 4 bytes do not
    enter the result. *)
Theorem ComputeDomain_shape (Other error : Type) (w : world Other error)
  (domainType : array DomainByteLength) (forkVersion genesisValidatorsRoot : slice)
  (forkDataRoot : array 32) :
  ssz_HashTreeRoot w
    (fork_data_record (params_BeaconConfig w) forkVersion genesisValidatorsRoot)
  = (forkDataRoot, None) ->
  exists d : list byte,
    run w (ComputeDomain domainType forkVersion genesisValidatorsRoot)
    = Returns (slice_of d, None) /\
    List.length d = 32 /\
    firstn 4 d = Vector.to_list domainType /\
    skipn 4 d = firstn 28 (Vector.to_list forkDataRoot).
Proof.
  intros Hroot.
  exists (Vector.to_list domainType ++ firstn 28 (Vector.to_list forkDataRoot)).
  assert (Hdt : List.length (Vector.to_list domainType) = 4)
    by apply Vector.length_to_list.
  assert (Hfr : List.length (Vector.to_list forkDataRoot) = 32)
    by apply Vector.length_to_list.
  repeat split.
  - rewrite ComputeDomain_run, Hroot. reflexivity.
  - rewrite length_app, length_firstn, Hdt, Hfr. reflexivity.
  - rewrite firstn_app, Hdt, firstn_all2 by lia.
    cbn [Nat.sub firstn]. apply app_nil_r.
  - rewrite skipn_app, Hdt, skipn_all2 by lia. reflexivity.
Qed.

Lemma ComputeDomain_shape_witness :
  exists d : list byte,
    run Sample.w (ComputeDomain Sample.domainType Sample.forkVersion5 Sample.root31)
    = Returns (slice_of d, None) /\
    List.length d = 32 /\
    firstn 4 d = Vector.to_list Sample.domainType /\
    skipn 4 d =
    firstn 28 (Vector.to_list
                 (Sample.pack ([x46; x01; x02; x03; x04; x05] ++ repeat x22 31))).
Proof.
  apply (ComputeDomain_shape nat string Sample.w Sample.domainType
           Sample.forkVersion5 Sample.root31).
  reflexivity.
Defined.

(** C3: with both optional arguments absent (nil), [ComputeDomain] returns what
    it returns for the genesis fork version and 32 zero bytes given
    explicitly, the configured zero hash being all zero; the engine is handed
    the record with the defaults already in place. *)
Theorem ComputeDomain_default_equivalence (Other error : Type)
  (w : world Other error) (t : array DomainByteLength) :
  ZeroHash (params_BeaconConfig w) = zero_array 32 ->
  run w (ComputeDomain t nil_slice nil_slice)
  = run w (ComputeDomain t (GenesisForkVersion (params_BeaconConfig w))
             (slice_of (repeat x00 32))) /\
  engine_inputs w (ComputeDomain t nil_slice nil_slice)
  = [ForkDataPtr
       {| CurrentVersion := GenesisForkVersion (params_BeaconConfig w);
          GenesisValidatorsRoot := slice_of (repeat x00 32) |}].
Proof.
  intros Hzero.
  assert (Hrec : fork_data_record (Other := Other) (params_BeaconConfig w)
                   nil_slice nil_slice
                 = ForkDataPtr
                     {| CurrentVersion := GenesisForkVersion (params_BeaconConfig w);
                        GenesisValidatorsRoot := slice_of (repeat x00 32) |}).
  { unfold fork_data_record, resolved_fork_version, resolved_genesis_root.
    cbn [is_nil]. rewrite Hzero. unfold array_slice, zero_array.
    now rewrite Vector.to_list_const. }
  split.
  - rewrite !ComputeDomain_run, Hrec.
    unfold fork_data_record at 1.
    rewrite resolved_fork_version_idem. reflexivity.
  - rewrite ComputeDomain_inputs, Hrec. reflexivity.
Qed.

Lemma ComputeDomain_default_equivalence_witness :
  run Sample.w (ComputeDomain Sample.domainType nil_slice nil_slice)
  = run Sample.w (ComputeDomain Sample.domainType (slice_of [x00; x00; x00; x00])
                    (slice_of (repeat x00 32))) /\
  engine_inputs Sample.w (ComputeDomain Sample.domainType nil_slice nil_slice)
  = [ForkDataPtr
       {| CurrentVersion := slice_of [x00; x00; x00; x00];
          GenesisValidatorsRoot := slice_of (repeat x00 32) |}].
Proof.
  apply (ComputeDomain_default_equivalence nat string Sample.w Sample.domainType).
  reflexivity.
Defined.

(** ** The fork-data root *)

(** C4: [computeForkDataRoot] hands the engine exactly one value, the record
    [{ CurrentVersion: version, GenesisValidatorsRoot: root }]; it returns the
    digest the engine produced for it with a nil error, and when the engine
    fails it returns the engine's error itself. *)
Theorem computeForkDataRoot_spec (Other error : Type) (w : world Other error)
  (version root : slice) :
  let record :=
    ForkDataPtr {| CurrentVersion := version; GenesisValidatorsRoot := root |} in
  engine_inputs w (computeForkDataRoot version root) = [record] /\
  (forall r : array 32,
      ssz_HashTreeRoot w record = (r, None) ->
      run w (computeForkDataRoot version root) = Returns (r, None)) /\
  (forall (r : array 32) (e : error),
      ssz_HashTreeRoot w record = (r, Some e) ->
      run w (computeForkDataRoot version root) = Returns (zero_array 32, Some e)).
Proof.
  intros record. split; [apply computeForkDataRoot_inputs |].
  split; intros; rewrite computeForkDataRoot_run;
    fold record; match goal with H : _ = _ |- _ => rewrite H end; reflexivity.
Qed.

Lemma computeForkDataRoot_spec_witness :
  run Sample.w (computeForkDataRoot Sample.forkVersion5 Sample.root31)
  = Returns (Sample.pack ([x46; x01; x02; x03; x04; x05] ++ repeat x22 31), None).
Proof.
  apply (proj1 (proj2 (computeForkDataRoot_spec nat string Sample.w
                         Sample.forkVersion5 Sample.root31))).
  reflexivity.
Defined.

(** ** Sizes at the interface *)

(** C6, as stated, fails: a 5-byte fork version and a 31-byte genesis
    validators root are values of the parameter types of [ComputeDomain] and
    [computeForkDataRoot], and both functions hand them to the engine. *)
Lemma wrong_length_inputs_accepted :
  len Sample.forkVersion5 = 5 /\
  len Sample.root31 = 31 /\
  engine_inputs Sample.w
    (ComputeDomain Sample.domainType Sample.forkVersion5 Sample.root31)
  = [ForkDataPtr {| CurrentVersion := Sample.forkVersion5;
                    GenesisValidatorsRoot := Sample.root31 |}] /\
  engine_inputs Sample.w (computeForkDataRoot Sample.forkVersion5 Sample.root31)
  = [ForkDataPtr {| CurrentVersion := Sample.forkVersion5;
                    GenesisValidatorsRoot := Sample.root31 |}] /\
  exists d : slice,
    run Sample.w (ComputeDomain Sample.domainType Sample.forkVersion5 Sample.root31)
    = Returns (d, None).
Proof.
  repeat split. eexists. vm_compute. reflexivity.
Qed.

(** C6, amended: only the domain type is sized.  A domain type always has
    exactly 4 bytes.  A fork version and a genesis validators root are slices
    of any length, and no function checks their length: [computeForkDataRoot]
    hands the engine the record of the two slices it was given,
    [ComputeDomain] hands the engine one fork-data record whose genesis
    validators root is the slice it was given, and an error that
    [ComputeDomain] returns is the engine's error for that record. *)
Theorem only_domainType_is_sized (Other error : Type) (w : world Other error)
  (domainType : array DomainByteLength) (version root : list byte) :
  List.length (Vector.to_list domainType) = 4 /\
  engine_inputs w (computeForkDataRoot (slice_of version) (slice_of root))
  = [ForkDataPtr {| CurrentVersion := slice_of version;
                    GenesisValidatorsRoot := slice_of root |}] /\
  exists f : ForkData,
    engine_inputs w (ComputeDomain domainType (slice_of version) (slice_of root))
    = [ForkDataPtr f] /\
    GenesisValidatorsRoot f = slice_of root /\
    forall (d : slice) (e : error),
      run w (ComputeDomain domainType (slice_of version) (slice_of root))
      = Returns (d, Some e) ->
      snd (ssz_HashTreeRoot w (ForkDataPtr f)) = Some e.
Proof.
  split; [apply Vector.length_to_list |].
  split; [apply computeForkDataRoot_inputs |].
  eexists. split; [apply ComputeDomain_inputs |].
  split; [reflexivity |].
  intros d e. rewrite ComputeDomain_run.
  unfold fork_data_record.
  destruct (ssz_HashTreeRoot w _) as [r [e' |]]; intros Hrun;
    [injection Hrun as _ <-; reflexivity | discriminate Hrun].
Qed.

(** C7: a non-nil fork version whose length is not 4 reaches the engine as it
    was supplied.  The record hashed holds the caller's slice, which is not the
    slice of the 4-byte copy [forkBytes], and the domain returned is built from
    the engine's answer for that record. *)
Theorem ComputeDomain_forkVersion_unmodified (Other error : Type)
  (w : world Other error) (domainType : array DomainByteLength)
  (version : list byte) (genesisValidatorsRoot : slice) :
  List.length version <> ForkVersionByteLength ->
  let forkBytes := copy (zero_array ForkVersionByteLength) version in
  let hashed :=
    ForkDataPtr
      {| CurrentVersion := slice_of version;
         GenesisValidatorsRoot :=
           resolved_genesis_root (params_BeaconConfig w) genesisValidatorsRoot |} in
  engine_inputs w (ComputeDomain domainType (slice_of version) genesisValidatorsRoot)
  = [hashed] /\
  slice_of version <> array_slice forkBytes /\
  run w (ComputeDomain domainType (slice_of version) genesisValidatorsRoot)
  = match ssz_HashTreeRoot w hashed with
    | (root, None) =>
        Returns (slice_of (Vector.to_list domainType
                           ++ firstn 28 (Vector.to_list root)), None)
    | (_, Some e) => Returns (nil_slice, Some e)
    end.
Proof.
  intros Hlen forkBytes hashed.
  split; [apply ComputeDomain_inputs |].
  split; [now apply copy_slice_differs |].
  apply ComputeDomain_run.
Qed.

Lemma ComputeDomain_forkVersion_unmodified_witness :
  engine_inputs Sample.w
    (ComputeDomain Sample.domainType Sample.forkVersion5 nil_slice)
  = [ForkDataPtr {| CurrentVersion := slice_of [x01; x02; x03; x04; x05];
                    GenesisValidatorsRoot := slice_of (repeat x00 32) |}] /\
  Sample.forkVersion5 <> slice_of [x01; x02; x03; x04] /\
  run Sample.w (ComputeDomain Sample.domainType Sample.forkVersion5 nil_slice)
  = Returns (slice_of ([x01; x00; x00; x00] ++ [x46; x01; x02; x03; x04; x05]
                       ++ repeat x00 22), None).
Proof.
  apply (ComputeDomain_forkVersion_unmodified nat string Sample.w
           Sample.domainType [x01; x02; x03; x04; x05] nil_slice).
  discriminate.
Defined.

(** The truncated copy would have given another domain on the sample engine. *)
Example truncated_version_gives_another_domain :
  run Sample.w (ComputeDomain Sample.domainType Sample.forkVersion5 nil_slice)
  <> run Sample.w
       (ComputeDomain Sample.domainType
          (array_slice (copy (zero_array ForkVersionByteLength)
                          (bytes Sample.forkVersion5))) nil_slice).
Proof. vm_compute. discriminate. Qed.

(** ** The signing root *)

(** C2: [ComputeSigningRoot] returns, and what it returns is the hash-tree-root
    of the record [{ ObjectRoot: hashTreeRoot(object), Domain: domain }], fields
    in that order, a failure of either digest being the failure returned. *)
Theorem ComputeSigningRoot_refines_spec (Other error : Type)
  (w : world Other error) (object : iface Other) (dom : slice) :
  exists r : root_result error,
    run w (ComputeSigningRoot object dom) = Returns r /\
    outcome_of r = spec_signing_root w object dom.
Proof.
  rewrite ComputeSigningRoot_run.
  unfold spec_signing_root, hashTreeRoot.
  destruct (ssz_HashTreeRoot w object) as [objRoot [e |]] eqn:Hobj.
  - exists (zero_array 32, Some e). split; reflexivity.
  - eexists. split; reflexivity.
Qed.

(** C5: when the engine fails on the object, [ComputeSigningRoot] returns the
    zero array together with the engine's error, and the engine was asked for
    nothing but the object: no container was built and hashed. *)
Theorem ComputeSigningRoot_error_propagation (Other error : Type)
  (w : world Other error) (object : iface Other) (dom : slice)
  (r : array 32) (e : error) :
  ssz_HashTreeRoot w object = (r, Some e) ->
  run w (ComputeSigningRoot object dom) = Returns (zero_array 32, Some e) /\
  engine_inputs w (ComputeSigningRoot object dom) = [object].
Proof.
  intros Hfail. split.
  - rewrite ComputeSigningRoot_run, Hfail. reflexivity.
  - rewrite ComputeSigningRoot_inputs, Hfail. reflexivity.
Qed.

Lemma ComputeSigningRoot_error_propagation_witness :
  run Sample.w (ComputeSigningRoot (OtherValue 0) (slice_of [xaa]))
  = Returns (zero_array 32, Some "unsupported object"%string) /\
  engine_inputs Sample.w (ComputeSigningRoot (OtherValue 0) (slice_of [xaa]))
  = [OtherValue 0].
Proof.
  apply (ComputeSigningRoot_error_propagation nat string Sample.w (OtherValue 0)
           (slice_of [xaa]) (Sample.pack [xff; xee])).
  reflexivity.
Defined.

(** C8: [ComputeSigningRoot] has no check of its own on the domain.  Whatever
    the domain's length, the call returns without a panic; once the object is
    hashed, the domain sits unchanged in the container given to the engine and
    the result is the engine's answer for that container; an error returned is
    one the engine gave, for the object or for the container. *)
Theorem ComputeSigningRoot_no_domain_check (Other error : Type)
  (w : world Other error) (object : iface Other) (dom : slice) :
  exists r : root_result error,
    run w (ComputeSigningRoot object dom) = Returns r /\
    (forall objRoot : array 32,
        ssz_HashTreeRoot w object = (objRoot, None) ->
        let container :=
          SigningRootPtr {| ObjectRoot := array_slice objRoot; Domain := dom |} in
        engine_inputs w (ComputeSigningRoot object dom) = [object; container] /\
        r = ssz_HashTreeRoot w container) /\
    (forall e : error,
        snd r = Some e ->
        In (Some e)
           (map (fun v => snd (ssz_HashTreeRoot w v))
                (engine_inputs w (ComputeSigningRoot object dom)))).
Proof.
  rewrite ComputeSigningRoot_run, ComputeSigningRoot_inputs.
  destruct (ssz_HashTreeRoot w object) as [objRoot [e |]] eqn:Hobj.
  - exists (zero_array 32, Some e). split; [reflexivity |]. split.
    + intros objRoot' Heq. discriminate Heq.
    + intros e' He'. cbn [snd] in He'. left. cbn [snd map].
      rewrite Hobj. exact He'.
  - eexists. split; [reflexivity |]. split.
    + intros objRoot' Heq. injection Heq as <-. split; reflexivity.
    + intros e' He'. right. left. exact He'.
Qed.

Lemma ComputeSigningRoot_no_domain_check_witness :
  exists r : root_result string,
    run Sample.w (ComputeSigningRoot (OtherValue 3) (slice_of (repeat xaa 41)))
    = Returns r /\
    snd r = Some "domain too long"%string.
Proof.
  destruct (ComputeSigningRoot_no_domain_check nat string Sample.w (OtherValue 3)
              (slice_of (repeat xaa 41))) as [r [Hrun [Hok _]]].
  exists r. split; [exact Hrun |].
  destruct (Hok (Sample.pack (x4f :: repeat x11 3)) eq_refl) as [_ Hr].
  rewrite Hr. reflexivity.
Defined.

(** C9: the object root inside [ComputeSigningRoot] is the same for any two
    domains.  One value [objectRoot], fixed by the object alone (absent when
    hashing the object failed), is the [ObjectRoot] of the container hashed
    under either domain; the domain only fills the container's second field. *)
Theorem objectRoot_independent_of_domain (Other error : Type)
  (w : world Other error) (object : iface Other) (domain1 domain2 : slice) :
  exists objectRoot : option slice,
    objectRoot = match hashTreeRoot w object with
                 | inl r => Some (array_slice r)
                 | inr _ => None
                 end /\
    let hashed (dom : slice) :=
      object ::
      match objectRoot with
      | Some r => [SigningRootPtr {| ObjectRoot := r; Domain := dom |}]
      | None => []
      end in
    engine_inputs w (ComputeSigningRoot object domain1) = hashed domain1 /\
    engine_inputs w (ComputeSigningRoot object domain2) = hashed domain2.
Proof.
  eexists. split; [reflexivity |].
  rewrite !ComputeSigningRoot_inputs. unfold hashTreeRoot, outcome_of.
  destruct (ssz_HashTreeRoot w object) as [objRoot [e |]]; split; reflexivity.
Qed.

(** The final signing root does depend on the domain. *)
Example signing_root_depends_on_domain :
  run Sample.w (ComputeSigningRoot (OtherValue 3) (slice_of [xaa]))
  <> run Sample.w (ComputeSigningRoot (OtherValue 3) (slice_of [xbb])).
Proof. vm_compute. discriminate. Qed.

(** ** Determinism *)

(** The functions run against a world that keeps state. *)

Section ExecFacts.

Variables (Other error S : Type).
Variable m : machine Other error S.

Lemma exec_bind (A B : Type) (p : prog Other error A)
  (f : A -> prog Other error B) (s : S) :
  exec m (bind_prog p f) s =
  match exec m p s with
  | (Returns a, s') => exec m (f a) s'
  | (Panics, s') => (Panics, s')
  end.
Proof.
  revert s. induction p as [a | | v k IH | k IH]; intros s; cbn [bind_prog exec].
  - reflexivity.
  - reflexivity.
  - destruct (hash_step m s v) as [r s']. apply IH.
  - destruct (config_step m s) as [c s']. apply IH.
Qed.

Lemma exec_twice (A : Type) (p : prog Other error A) (r : A) :
  (forall s, fst (exec m p s) = Returns r) ->
  forall s, fst (exec m (twice p) s) = Returns (r, r).
Proof.
  intros Hp s. unfold twice. cbn [bind ret Monad_prog].
  rewrite exec_bind. pose proof (Hp s) as H1.
  destruct (exec m p s) as [x s1]. cbn [fst] in H1. subst x.
  rewrite exec_bind. pose proof (Hp s1) as H2.
  destruct (exec m p s1) as [y s2]. cbn [fst] in H2. subst y.
  reflexivity.
Qed.

Lemma exec_domain (dt : array DomainByteLength) (root : array 32) (s : S) :
  exec m (domain dt (array_slice root)) s =
  (Returns (slice_of (Vector.to_list dt ++ firstn 28 (Vector.to_list root))), s).
Proof.
  unfold domain, slice_to. rewrite len_array_slice.
  change (28 <=? 32) with true. unfold array_slice.
  cbn [bind ret Monad_prog bind_prog exec append bytes app].
  now rewrite firstn_domainType.
Qed.

Lemma exec_computeForkDataRoot (version root : slice) (s : S) :
  let step := hash_step m s (ForkDataPtr (mkForkData version root)) in
  exec m (computeForkDataRoot version root) s =
  (Returns match snd (fst step) with
           | Some e => (zero_array 32, Some e)
           | None => (fst (fst step), None)
           end,
   snd step).
Proof.
  unfold computeForkDataRoot.
  cbn [bind ret Monad_prog bind_prog exec HashTreeRoot].
  destruct (hash_step m s _) as [[r [e |]] s']; reflexivity.
Qed.

Lemma exec_ComputeSigningRoot (object : iface Other) (dom : slice) (s : S) :
  let step1 := hash_step m s object in
  let container :=
    SigningRootPtr (mkSigningRoot (array_slice (fst (fst step1))) dom) in
  exec m (ComputeSigningRoot object dom) s =
  match snd (fst step1) with
  | Some e => (Returns (zero_array 32, Some e), snd step1)
  | None =>
      (Returns (fst (hash_step m (snd step1) container)),
       snd (hash_step m (snd step1) container))
  end.
Proof.
  unfold ComputeSigningRoot.
  cbn [bind ret Monad_prog bind_prog exec HashTreeRoot].
  destruct (hash_step m s object) as [[objRoot [e |]] s1];
    cbn [fst snd exec HashTreeRoot].
  - reflexivity.
  - destruct (hash_step m s1 _) as [r s2]. reflexivity.
Qed.

Lemma exec_ComputeDomain (dt : array DomainByteLength) (fv gr : slice) (s : S) :
  let s1 := if is_nil fv then snd (config_step m s) else s in
  let s2 := if is_nil gr then snd (config_step m s1) else s1 in
  let cfg :=
    {| GenesisForkVersion := GenesisForkVersion (fst (config_step m s));
       ZeroHash := ZeroHash (fst (config_step m s1)) |} in
  let step := hash_step m s2 (fork_data_record cfg fv gr) in
  exec m (ComputeDomain dt fv gr) s =
  (Returns match snd (fst step) with
           | Some e => (nil_slice, Some e)
           | None =>
               (slice_of (Vector.to_list dt
                          ++ firstn 28 (Vector.to_list (fst (fst step)))), None)
           end,
   snd step).
Proof.
  unfold ComputeDomain, computeForkDataRoot, fork_data_record,
    resolved_fork_version, resolved_genesis_root.
  destruct fv as [| v], gr as [| g];
    cbn [bind ret Monad_prog bind_prog exec HashTreeRoot BeaconConfig is_nil];
    repeat match goal with
      | |- context [config_step m ?x] =>
          let c := fresh "c" in let s' := fresh "s" in
          destruct (config_step m x) as [c s']; cbn [fst snd exec bind_prog]
      end;
    cbn [GenesisForkVersion ZeroHash fst snd];
    match goal with
    | |- context [hash_step m ?x ?v] =>
        destruct (hash_step m x v) as [[root [e |]] s3]
    end;
    cbn [fst snd exec bind_prog]; try reflexivity;
    rewrite exec_bind, exec_domain; reflexivity.
Qed.

End ExecFacts.

(** C10: two calls in a row of one operation on the same inputs return the
    same results, errors included, whatever state the outside world is in and
    however that state moves between the calls, as long as the engine and the
    configuration provider are deterministic where the operation consults
    them: the engine on the values the operation hands it, the provider on
    the defaults of the nil arguments.  No operation reads or writes state
    shared across calls: the result [r] of a call is the same from every
    state, and the state a call leaves is the one the outside world moved to
    by itself in answering the operation's calls. *)
Theorem operations_deterministic (Other error S : Type)
  (m : machine Other error S) :
  (forall (version root : slice) (a : root_result error),
      let record := ForkDataPtr (mkForkData version root) in
      (forall s, fst (hash_step m s record) = a) ->
      exists r : root_result error, forall s : S,
        exec m (computeForkDataRoot version root) s
        = (Returns r, snd (hash_step m s record)) /\
        fst (exec m (twice (computeForkDataRoot version root)) s)
        = Returns (r, r)) /\
  (forall (domainType : array DomainByteLength)
          (forkVersion genesisValidatorsRoot : slice)
          (genesisForkVersion : slice) (zeroHash : array 32)
          (a : root_result error),
      let record :=
        fork_data_record (mkBeaconChainConfig genesisForkVersion zeroHash)
          forkVersion genesisValidatorsRoot in
      (is_nil forkVersion = true ->
       forall s, GenesisForkVersion (fst (config_step m s)) = genesisForkVersion) ->
      (is_nil genesisValidatorsRoot = true ->
       forall s, ZeroHash (fst (config_step m s)) = zeroHash) ->
      (forall s, fst (hash_step m s record) = a) ->
      exists r : slice * option error, forall s : S,
        let s1 := if is_nil forkVersion then snd (config_step m s) else s in
        let s2 :=
          if is_nil genesisValidatorsRoot then snd (config_step m s1) else s1 in
        exec m (ComputeDomain domainType forkVersion genesisValidatorsRoot) s
        = (Returns r, snd (hash_step m s2 record)) /\
        fst (exec m (twice (ComputeDomain domainType forkVersion
                              genesisValidatorsRoot)) s)
        = Returns (r, r)) /\
  (forall (object : iface Other) (dom : slice) (a b : root_result error),
      let container :=
        SigningRootPtr (mkSigningRoot (array_slice (fst a)) dom) in
      (forall s, fst (hash_step m s object) = a) ->
      (snd a = None -> forall s, fst (hash_step m s container) = b) ->
      exists r : root_result error, forall s : S,
        let s1 := snd (hash_step m s object) in
        exec m (ComputeSigningRoot object dom) s
        = (Returns r,
           match snd a with
           | Some _ => s1
           | None => snd (hash_step m s1 container)
           end) /\
        fst (exec m (twice (ComputeSigningRoot object dom)) s)
        = Returns (r, r)).
Proof.
  split; [| split].
  - intros version root a record Ha.
    assert (Hone : forall s,
               exec m (computeForkDataRoot version root) s
               = (Returns match snd a with
                          | Some e => (zero_array 32, Some e)
                          | None => (fst a, None)
                          end,
                  snd (hash_step m s record))).
    { intros s. rewrite exec_computeForkDataRoot. fold record.
      now rewrite (Ha s). }
    eexists. intros s. split; [apply Hone |].
    apply exec_twice. intros s'. now rewrite Hone.
  - intros domainType forkVersion genesisValidatorsRoot genesisForkVersion
      zeroHash a record Hfv Hgr Ha.
    assert (Hone : forall s,
               let s1 := if is_nil forkVersion then snd (config_step m s) else s in
               let s2 :=
                 if is_nil genesisValidatorsRoot
                 then snd (config_step m s1) else s1 in
               exec m (ComputeDomain domainType forkVersion
                         genesisValidatorsRoot) s
               = (Returns match snd a with
                          | Some e => (nil_slice, Some e)
                          | None =>
                              (slice_of (Vector.to_list domainType
                                         ++ firstn 28 (Vector.to_list (fst a))),
                               None)
                          end,
                  snd (hash_step m s2 record))).
    { intros s s1 s2. rewrite exec_ComputeDomain. fold s1. fold s2.
      assert (Hrec : fork_data_record (Other := Other)
                       {| GenesisForkVersion :=
                            GenesisForkVersion (fst (config_step m s));
                          ZeroHash := ZeroHash (fst (config_step m s1)) |}
                       forkVersion genesisValidatorsRoot
                     = record).
      { unfold record, fork_data_record, resolved_fork_version,
          resolved_genesis_root.
        destruct forkVersion, genesisValidatorsRoot; cbn [is_nil] in *;
          cbn [GenesisForkVersion ZeroHash];
          rewrite ?Hfv, ?Hgr by reflexivity; reflexivity. }
      rewrite Hrec, (Ha s2). reflexivity. }
    eexists. intros s s1 s2. split; [apply Hone |].
    apply exec_twice. intros s'. now rewrite Hone.
  - intros object dom a b container Ha Hb.
    assert (Hone : forall s,
               let s1 := snd (hash_step m s object) in
               exec m (ComputeSigningRoot object dom) s
               = (Returns match snd a with
                          | Some e => (zero_array 32, Some e)
                          | None => b
                          end,
                  match snd a with
                  | Some _ => s1
                  | None => snd (hash_step m s1 container)
                  end)).
    { intros s s1. rewrite exec_ComputeSigningRoot. rewrite (Ha s).
      fold container. fold s1.
      destruct (snd a) as [e |] eqn:Herr; [reflexivity |].
      now rewrite (Hb eq_refl s1). }
    eexists. intros s s1. split; [apply Hone |].
    apply exec_twice. intros s'. now rewrite Hone.
Qed.

(** On the partly deterministic sample world: the fork-data root of a 5-byte
    version, the domain of that version with a nil genesis validators root
    (the genesis fork version, which changes with every call, is not read),
    and the signing root of object [3]. *)
Lemma operations_deterministic_witness :
  (exists r : root_result string, forall s : nat,
      exec Sample.flaky (computeForkDataRoot Sample.forkVersion5 Sample.root31) s
      = (Returns r, S s) /\
      fst (exec Sample.flaky
             (twice (computeForkDataRoot Sample.forkVersion5 Sample.root31)) s)
      = Returns (r, r)) /\
  (exists r : slice * option string, forall s : nat,
      exec Sample.flaky
        (ComputeDomain Sample.domainType Sample.forkVersion5 nil_slice) s
      = (Returns r, S (S s)) /\
      fst (exec Sample.flaky
             (twice (ComputeDomain Sample.domainType Sample.forkVersion5
                       nil_slice)) s)
      = Returns (r, r)) /\
  (exists r : root_result string, forall s : nat,
      exec Sample.flaky (ComputeSigningRoot (OtherValue 3) (slice_of [xaa])) s
      = (Returns r, S (S s)) /\
      fst (exec Sample.flaky
             (twice (ComputeSigningRoot (OtherValue 3) (slice_of [xaa]))) s)
      = Returns (r, r)).
Proof.
  destruct (operations_deterministic nat string nat Sample.flaky)
    as [Hfork [Hdomain Hsigning]].
  split; [| split].
  - apply (Hfork Sample.forkVersion5 Sample.root31
             (Sample.engine
                (ForkDataPtr (mkForkData Sample.forkVersion5 Sample.root31)))).
    intros s. reflexivity.
  - apply (Hdomain Sample.domainType Sample.forkVersion5 nil_slice
             nil_slice (zero_array 32)
             (Sample.engine
                (ForkDataPtr
                   (mkForkData Sample.forkVersion5
                      (array_slice (zero_array 32)))))).
    + intros Hnil. discriminate Hnil.
    + intros _ s. reflexivity.
    + intros s. reflexivity.
  - apply (Hsigning (OtherValue 3) (slice_of [xaa])
             (Sample.engine (OtherValue 3))
             (Sample.engine
                (SigningRootPtr
                   (mkSigningRoot
                      (array_slice (fst (Sample.engine (OtherValue 3))))
                      (slice_of [xaa]))))).
    + intros s. reflexivity.
    + intros _ s. reflexivity.
Defined.

(** Where the sample world is not deterministic the two calls differ: object
    [7] gets another digest at every call, and with a nil fork version the
    domain follows the changing genesis fork version. *)
Example flaky_calls_differ :
  fst (exec Sample.flaky
         (twice (ComputeSigningRoot (OtherValue 7) (slice_of [xaa]))) 1)
  = Returns ((Sample.pack (x53 :: [x07; x00; x00; x00; x00; x00; x00; x00] ++ [xaa]),
              None),
             (Sample.pack (x53 :: [x07; x07; x07; x00; x00; x00; x00; x00] ++ [xaa]),
              None)) /\
  fst (exec Sample.flaky
         (twice (ComputeDomain Sample.domainType nil_slice Sample.root31)) 1)
  = Returns
      ((slice_of ([x01; x00; x00; x00] ++ [x46; x09] ++ repeat x22 26), None),
       (slice_of ([x01; x00; x00; x00] ++ [x46; x09; x09; x09] ++ repeat x22 24),
        None)).
Proof. split; vm_compute; reflexivity. Qed.

(** The counting engine does change state between the two calls. *)
Example counting_engine_changes_state :
  snd (exec Sample.counting (ComputeDomain Sample.domainType nil_slice nil_slice) 0)
  = 3 /\
  exec Sample.counting (twice (ComputeSigningRoot (OtherValue 0) nil_slice)) 7
  = (Returns ((zero_array 32, Some "unsupported object"%string),
              (zero_array 32, Some "unsupported object"%string)), 9).
Proof. split; reflexivity. Qed.

(** * Further properties of the source functions *)

(** ** Lists and arrays *)

Lemma app_same_length_inj (A : Type) (l1 l2 t1 t2 : list A) :
  List.length l1 = List.length l2 ->
  l1 ++ t1 = l2 ++ t2 -> l1 = l2 /\ t1 = t2.
Proof.
  revert l2. induction l1 as [| a l1 IH]; intros [| b l2] Hlen Heq;
    try discriminate Hlen.
  - split; [reflexivity | exact Heq].
  - injection Hlen as Hlen. injection Heq as -> Heq.
    destruct (IH l2 Hlen Heq) as [-> ->]. split; reflexivity.
Qed.

(** ** The helper [domain] *)

Section DomainHelper.

Variables (Other error : Type).
Variable w : world Other error.

Lemma domain_run_long (dt : array DomainByteLength) (s : slice) :
  28 <= len s ->
  run w (domain dt s)
  = Returns (slice_of (Vector.to_list dt ++ firstn 28 (bytes s))).
Proof.
  intros Hlen. unfold domain, slice_to.
  apply Nat.leb_le in Hlen as Hleb. rewrite Hleb.
  destruct s as [| l].
  - unfold len in Hlen. cbn [bytes List.length] in Hlen. lia.
  - run_steps. cbn [append bytes app]. now rewrite firstn_domainType.
Qed.

End DomainHelper.

(** X2: on a slice of at least 28 bytes, [domain] returns a non-nil slice of
    exactly 32 bytes, the 4 bytes of the domain type followed by the first 28
    bytes of the slice, and asks nothing of the hashing engine. *)
Theorem domain_of_long_slice (Other error : Type) (w : world Other error)
  (domainType : array DomainByteLength) (forkDataRoot : slice) :
  28 <= len forkDataRoot ->
  exists d : list byte,
    run w (domain domainType forkDataRoot) = Returns (slice_of d) /\
    d = Vector.to_list domainType ++ firstn 28 (bytes forkDataRoot) /\
    List.length d = 32 /\
    engine_inputs w (domain domainType forkDataRoot) = [].
Proof.
  intros Hlen. eexists. split; [now apply domain_run_long |].
  split; [reflexivity |]. split; [| apply domain_inputs].
  rewrite length_app, length_firstn, Vector.length_to_list.
  unfold len in Hlen. unfold DomainByteLength. lia.
Qed.

Lemma domain_of_long_slice_witness :
  exists d : list byte,
    run Sample.w (domain Sample.domainType (slice_of (repeat x07 30)))
    = Returns (slice_of d) /\
    d = [x01; x00; x00; x00] ++ repeat x07 28 /\
    List.length d = 32 /\
    engine_inputs Sample.w (domain Sample.domainType (slice_of (repeat x07 30))) = [].
Proof.
  apply (domain_of_long_slice nat string Sample.w Sample.domainType
           (slice_of (repeat x07 30))).
  unfold len. cbn [bytes]. rewrite repeat_length. lia.
Defined.

(** X3: on slices of at least 28 bytes, two calls of [domain] return the same
    slice exactly when the domain types are equal and the slices agree on
    their first 28 bytes: distinct domain types never share a domain, and
    bytes from position 28 on never matter. *)
Theorem domain_equal_iff (Other error : Type) (w : world Other error)
  (domainType1 domainType2 : array DomainByteLength) (root1 root2 : slice) :
  28 <= len root1 ->
  28 <= len root2 ->
  run w (domain domainType1 root1) = run w (domain domainType2 root2) <->
  domainType1 = domainType2 /\ firstn 28 (bytes root1) = firstn 28 (bytes root2).
Proof.
  intros H1 H2. rewrite !domain_run_long by assumption. split.
  - intros Heq. injection Heq as Heq.
    apply app_same_length_inj in Heq as [Hdt Htail].
    + split; [now apply Vector.to_list_inj | exact Htail].
    + now rewrite !Vector.length_to_list.
  - intros [-> ->]. reflexivity.
Qed.

Lemma domain_equal_iff_witness :
  run Sample.w (domain Sample.domainType (slice_of (repeat x07 28 ++ [x01])))
  = run Sample.w (domain Sample.domainType (slice_of (repeat x07 28 ++ [x02; x03])))
  <->
  Sample.domainType = Sample.domainType /\
  firstn 28 (repeat x07 28 ++ [x01]) = firstn 28 (repeat x07 28 ++ [x02; x03]).
Proof.
  apply (domain_equal_iff nat string Sample.w Sample.domainType Sample.domainType
           (slice_of (repeat x07 28 ++ [x01]))
           (slice_of (repeat x07 28 ++ [x02; x03])));
    unfold len; cbn [bytes]; rewrite length_app, repeat_length; cbn; lia.
Defined.

(** ** More on [ComputeDomain] *)

(** X4: [ComputeDomain] always returns, and its two results exclude each other:
    with a nil error the domain is a non-nil slice of exactly 32 bytes, and
    with an error, which is the engine's for the fork-data record, the domain
    is the nil slice. *)
Theorem ComputeDomain_result_invariant (Other error : Type)
  (w : world Other error) (domainType : array DomainByteLength)
  (forkVersion genesisValidatorsRoot : slice) :
  exists (d : slice) (err : option error),
    run w (ComputeDomain domainType forkVersion genesisValidatorsRoot)
    = Returns (d, err) /\
    err = snd (ssz_HashTreeRoot w
                 (fork_data_record (params_BeaconConfig w) forkVersion
                    genesisValidatorsRoot)) /\
    match err with
    | None => is_nil d = false /\ len d = 32
    | Some _ => d = nil_slice
    end.
Proof.
  rewrite ComputeDomain_run.
  destruct (ssz_HashTreeRoot w _) as [root [e |]].
  - exists nil_slice, (Some e). repeat split.
  - eexists _, None. repeat split.
    unfold len. cbn [bytes].
    rewrite length_app, length_firstn, !Vector.length_to_list. reflexivity.
Qed.

(** X5: two successful calls of [ComputeDomain], in any two worlds, return the
    same domain exactly when their domain types are equal and their fork-data
    roots agree on the first 28 bytes.  So two different domain types never
    give the same domain, whatever the forks, and the last 4 bytes of a
    fork-data root never show in the domain. *)
Theorem ComputeDomain_equal_iff (Other error : Type)
  (w1 w2 : world Other error) (domainType1 domainType2 : array DomainByteLength)
  (forkVersion1 root1 forkVersion2 root2 : slice)
  (forkDataRoot1 forkDataRoot2 : array 32) :
  ssz_HashTreeRoot w1
    (fork_data_record (params_BeaconConfig w1) forkVersion1 root1)
  = (forkDataRoot1, None) ->
  ssz_HashTreeRoot w2
    (fork_data_record (params_BeaconConfig w2) forkVersion2 root2)
  = (forkDataRoot2, None) ->
  run w1 (ComputeDomain domainType1 forkVersion1 root1)
  = run w2 (ComputeDomain domainType2 forkVersion2 root2) <->
  domainType1 = domainType2 /\
  firstn 28 (Vector.to_list forkDataRoot1) = firstn 28 (Vector.to_list forkDataRoot2).
Proof.
  intros H1 H2. rewrite !ComputeDomain_run, H1, H2. split.
  - intros Heq. injection Heq as Heq.
    apply app_same_length_inj in Heq as [Hdt Htail].
    + split; [now apply Vector.to_list_inj | exact Htail].
    + now rewrite !Vector.length_to_list.
  - intros [-> ->]. reflexivity.
Qed.

Lemma ComputeDomain_equal_iff_witness :
  run Sample.w
    (ComputeDomain Sample.domainType Sample.forkVersion5 (slice_of (repeat x22 22)))
  = run Sample.w
      (ComputeDomain Sample.domainType Sample.forkVersion5 Sample.root31) <->
  Sample.domainType = Sample.domainType /\
  firstn 28 (Vector.to_list
               (Sample.pack ([x46; x01; x02; x03; x04; x05] ++ repeat x22 22)))
  = firstn 28 (Vector.to_list
                 (Sample.pack ([x46; x01; x02; x03; x04; x05] ++ repeat x22 31))).
Proof.
  apply (ComputeDomain_equal_iff nat string Sample.w Sample.w
           Sample.domainType Sample.domainType
           Sample.forkVersion5 (slice_of (repeat x22 22))
           Sample.forkVersion5 Sample.root31); reflexivity.
Defined.

(** X6: the domain type never reaches the hashing engine and only fills the
    first four bytes: two calls that differ in the domain type alone hand the
    engine the same value, return the same error, and return domains that
    agree from byte 4 on. *)
Theorem ComputeDomain_domainType_only_prefix (Other error : Type)
  (w : world Other error) (domainType1 domainType2 : array DomainByteLength)
  (forkVersion genesisValidatorsRoot : slice) :
  engine_inputs w (ComputeDomain domainType1 forkVersion genesisValidatorsRoot)
  = engine_inputs w (ComputeDomain domainType2 forkVersion genesisValidatorsRoot) /\
  exists (d1 d2 : slice) (err : option error),
    run w (ComputeDomain domainType1 forkVersion genesisValidatorsRoot)
    = Returns (d1, err) /\
    run w (ComputeDomain domainType2 forkVersion genesisValidatorsRoot)
    = Returns (d2, err) /\
    skipn 4 (bytes d1) = skipn 4 (bytes d2).
Proof.
  rewrite !ComputeDomain_inputs, !ComputeDomain_run.
  split; [reflexivity |].
  destruct (ssz_HashTreeRoot w _) as [root [e |]].
  - exists nil_slice, nil_slice, (Some e). repeat split.
  - eexists _, _, None. split; [reflexivity |]. split; [reflexivity |].
    cbn [bytes].
    assert (Hskip : forall dt : array DomainByteLength,
               skipn 4 (Vector.to_list dt) = [])
      by (intros dt; apply skipn_all2; rewrite Vector.length_to_list;
          unfold DomainByteLength; lia).
    now rewrite !skipn_app, !Hskip, !Vector.length_to_list.
Qed.

(** X7: [ComputeDomain] reads the configuration only for an argument that is
    nil.  In two worlds with the same engine whose configurations agree on the
    genesis fork version if the fork version is nil, and on the zero hash if
    the genesis validators root is nil, it hands the engine the same record
    and returns the same results; with both arguments non-nil the
    configuration does not matter at all. *)
Theorem ComputeDomain_config_use (Other error : Type)
  (w1 w2 : world Other error) (domainType : array DomainByteLength)
  (forkVersion genesisValidatorsRoot : slice) :
  (forall v, ssz_HashTreeRoot w1 v = ssz_HashTreeRoot w2 v) ->
  (is_nil forkVersion = true ->
   GenesisForkVersion (params_BeaconConfig w1)
   = GenesisForkVersion (params_BeaconConfig w2)) ->
  (is_nil genesisValidatorsRoot = true ->
   ZeroHash (params_BeaconConfig w1) = ZeroHash (params_BeaconConfig w2)) ->
  engine_inputs w1 (ComputeDomain domainType forkVersion genesisValidatorsRoot)
  = engine_inputs w2 (ComputeDomain domainType forkVersion genesisValidatorsRoot) /\
  run w1 (ComputeDomain domainType forkVersion genesisValidatorsRoot)
  = run w2 (ComputeDomain domainType forkVersion genesisValidatorsRoot).
Proof.
  intros Hengine Hfv Hgr.
  assert (Hrec : fork_data_record (Other := Other) (params_BeaconConfig w1)
                   forkVersion genesisValidatorsRoot
                 = fork_data_record (params_BeaconConfig w2)
                     forkVersion genesisValidatorsRoot).
  { unfold fork_data_record, resolved_fork_version, resolved_genesis_root.
    destruct forkVersion, genesisValidatorsRoot; cbn [is_nil] in *;
      rewrite ?Hfv, ?Hgr by reflexivity; reflexivity. }
  rewrite !ComputeDomain_inputs, !ComputeDomain_run, Hrec, Hengine.
  split; reflexivity.
Qed.

Lemma ComputeDomain_config_use_witness :
  let other :=
    mkWorld Sample.engine
      {| GenesisForkVersion := slice_of [x09; x09; x09; x09];
         ZeroHash := zero_array 32 |} in
  engine_inputs Sample.w
    (ComputeDomain Sample.domainType Sample.forkVersion5 nil_slice)
  = engine_inputs other
      (ComputeDomain Sample.domainType Sample.forkVersion5 nil_slice) /\
  run Sample.w (ComputeDomain Sample.domainType Sample.forkVersion5 nil_slice)
  = run other (ComputeDomain Sample.domainType Sample.forkVersion5 nil_slice).
Proof.
  intros other.
  apply (ComputeDomain_config_use nat string Sample.w other Sample.domainType
           Sample.forkVersion5 nil_slice).
  - intros v. reflexivity.
  - intros Hnil. discriminate Hnil.
  - intros _. reflexivity.
Defined.

(** X8: each argument is defaulted on its own, and passing a default
    explicitly is the same as leaving the argument nil: [ComputeDomain] on any
    arguments hands the engine the same record, and returns the same results,
    as on the arguments with every nil one replaced by its default. *)
Theorem ComputeDomain_defaults_explicit (Other error : Type)
  (w : world Other error) (domainType : array DomainByteLength)
  (forkVersion genesisValidatorsRoot : slice) :
  let cfg := params_BeaconConfig w in
  engine_inputs w (ComputeDomain domainType forkVersion genesisValidatorsRoot)
  = engine_inputs w
      (ComputeDomain domainType (resolved_fork_version cfg forkVersion)
         (resolved_genesis_root cfg genesisValidatorsRoot)) /\
  run w (ComputeDomain domainType forkVersion genesisValidatorsRoot)
  = run w
      (ComputeDomain domainType (resolved_fork_version cfg forkVersion)
         (resolved_genesis_root cfg genesisValidatorsRoot)).
Proof.
  intros cfg.
  assert (Hrec : fork_data_record (Other := Other) cfg forkVersion
                   genesisValidatorsRoot
                 = fork_data_record cfg (resolved_fork_version cfg forkVersion)
                     (resolved_genesis_root cfg genesisValidatorsRoot)).
  { unfold fork_data_record, resolved_fork_version, resolved_genesis_root.
    destruct forkVersion, genesisValidatorsRoot; cbn [is_nil];
      try reflexivity; destruct (GenesisForkVersion cfg); reflexivity. }
  rewrite !ComputeDomain_inputs, !ComputeDomain_run.
  fold cfg. rewrite <- Hrec. split; reflexivity.
Qed.

(** X9: [ComputeDomain] composes [computeForkDataRoot] and [domain]: whatever
    [computeForkDataRoot] returns on the defaulted arguments decides the
    result.  A fork-data root with a nil error gives the domain type followed
    by the root's first 28 bytes; an error gives the nil slice and that
    error. *)
Theorem ComputeDomain_from_fork_data_root (Other error : Type)
  (w : world Other error) (domainType : array DomainByteLength)
  (forkVersion genesisValidatorsRoot : slice)
  (forkDataRoot : array 32) (err : option error) :
  let cfg := params_BeaconConfig w in
  run w (computeForkDataRoot (resolved_fork_version cfg forkVersion)
           (resolved_genesis_root cfg genesisValidatorsRoot))
  = Returns (forkDataRoot, err) ->
  run w (ComputeDomain domainType forkVersion genesisValidatorsRoot)
  = match err with
    | None =>
        Returns (slice_of (Vector.to_list domainType
                           ++ firstn 28 (Vector.to_list forkDataRoot)), None)
    | Some e => Returns (nil_slice, Some e)
    end.
Proof.
  intros cfg. rewrite computeForkDataRoot_run, ComputeDomain_run.
  unfold fork_data_record. fold cfg.
  destruct (ssz_HashTreeRoot w _) as [root [e |]];
    intros Heq; injection Heq as <- <-; reflexivity.
Qed.

Lemma ComputeDomain_from_fork_data_root_witness :
  run Sample.w (ComputeDomain Sample.domainType nil_slice Sample.root31)
  = Returns (slice_of ([x01; x00; x00; x00]
                       ++ [x46; x00; x00; x00; x00] ++ repeat x22 23), None).
Proof.
  apply (ComputeDomain_from_fork_data_root nat string Sample.w Sample.domainType
           nil_slice Sample.root31
           (Sample.pack ([x46; x00; x00; x00; x00] ++ repeat x22 31)) None).
  reflexivity.
Defined.

(** ** More on [ComputeSigningRoot] *)

(** X10: when the object is hashed and the engine then fails on the container,
    [ComputeSigningRoot] returns the engine's two results for the container as
    they are: the engine's error, and the array the engine gave with it, which
    is not replaced by the zero array as it is when the object fails. *)
Theorem ComputeSigningRoot_container_failure (Other error : Type)
  (w : world Other error) (object : iface Other) (dom : slice)
  (objRoot r : array 32) (e : error) :
  ssz_HashTreeRoot w object = (objRoot, None) ->
  ssz_HashTreeRoot w
    (SigningRootPtr {| ObjectRoot := array_slice objRoot; Domain := dom |})
  = (r, Some e) ->
  run w (ComputeSigningRoot object dom) = Returns (r, Some e) /\
  engine_inputs w (ComputeSigningRoot object dom)
  = [object;
     SigningRootPtr {| ObjectRoot := array_slice objRoot; Domain := dom |}].
Proof.
  intros Hobj Hcont.
  rewrite ComputeSigningRoot_run, ComputeSigningRoot_inputs, Hobj.
  split; [now rewrite Hcont | reflexivity].
Qed.

Lemma ComputeSigningRoot_container_failure_witness :
  run Sample.w (ComputeSigningRoot (OtherValue 3) (slice_of (repeat xaa 41)))
  = Returns (Sample.pack [xdd], Some "domain too long"%string) /\
  engine_inputs Sample.w
    (ComputeSigningRoot (OtherValue 3) (slice_of (repeat xaa 41)))
  = [OtherValue 3;
     SigningRootPtr
       {| ObjectRoot := array_slice (Sample.pack (x4f :: repeat x11 3));
          Domain := slice_of (repeat xaa 41) |}].
Proof.
  apply (ComputeSigningRoot_container_failure nat string Sample.w (OtherValue 3)
           (slice_of (repeat xaa 41)) (Sample.pack (x4f :: repeat x11 3))
           (Sample.pack [xdd]) "domain too long"%string); reflexivity.
Defined.

(** X11: two calls of [ComputeSigningRoot] that return the same signing root
    with a nil error both hashed their object, and that root is the engine's
    digest of both containers.  The two containers are different values as
    soon as the domains differ or the object roots differ, so equal signing
    roots for different domains are a collision of the engine itself. *)
Theorem ComputeSigningRoot_collision (Other error : Type)
  (w : world Other error) (object1 object2 : iface Other)
  (domain1 domain2 : slice) (signingRoot : array 32) :
  run w (ComputeSigningRoot object1 domain1) = Returns (signingRoot, None) ->
  run w (ComputeSigningRoot object2 domain2) = Returns (signingRoot, None) ->
  exists objRoot1 objRoot2 : array 32,
    let c1 := {| ObjectRoot := array_slice objRoot1; Domain := domain1 |} in
    let c2 := {| ObjectRoot := array_slice objRoot2; Domain := domain2 |} in
    ssz_HashTreeRoot w object1 = (objRoot1, None) /\
    ssz_HashTreeRoot w object2 = (objRoot2, None) /\
    ssz_HashTreeRoot w (SigningRootPtr c1) = (signingRoot, None) /\
    ssz_HashTreeRoot w (SigningRootPtr c2) = (signingRoot, None) /\
    (domain1 <> domain2 \/ objRoot1 <> objRoot2 -> c1 <> c2).
Proof.
  rewrite !ComputeSigningRoot_run.
  destruct (ssz_HashTreeRoot w object1) as [objRoot1 [e1 |]];
    [intros H1; discriminate H1 |].
  destruct (ssz_HashTreeRoot w object2) as [objRoot2 [e2 |]];
    [intros _ H2; discriminate H2 |].
  intros H1 H2. injection H1 as H1. injection H2 as H2.
  exists objRoot1, objRoot2. cbn zeta.
  repeat split; try assumption.
  intros Hdiff Heq. injection Heq as Hroots Hdoms.
  destruct Hdiff as [Hd | Hr]; [exact (Hd Hdoms) |].
  apply Hr. apply Vector.to_list_inj.
  unfold array_slice in Hroots. congruence.
Qed.

Lemma ComputeSigningRoot_collision_witness :
  exists objRoot1 objRoot2 : array 32,
    let c1 := {| ObjectRoot := array_slice objRoot1;
                 Domain := slice_of (repeat xaa 23 ++ [x01]) |} in
    let c2 := {| ObjectRoot := array_slice objRoot2;
                 Domain := slice_of (repeat xaa 23 ++ [x02]) |} in
    Sample.engine (OtherValue 3) = (objRoot1, None) /\
    Sample.engine (OtherValue 3) = (objRoot2, None) /\
    Sample.engine (SigningRootPtr c1)
    = (Sample.pack (x53 :: firstn 8 (x4f :: repeat x11 3 ++ repeat x00 28)
                    ++ repeat xaa 23), None) /\
    Sample.engine (SigningRootPtr c2)
    = (Sample.pack (x53 :: firstn 8 (x4f :: repeat x11 3 ++ repeat x00 28)
                    ++ repeat xaa 23), None) /\
    (slice_of (repeat xaa 23 ++ [x01]) <> slice_of (repeat xaa 23 ++ [x02])
     \/ objRoot1 <> objRoot2 -> c1 <> c2).
Proof.
  apply (ComputeSigningRoot_collision nat string Sample.w
           (OtherValue 3) (OtherValue 3)
           (slice_of (repeat xaa 23 ++ [x01])) (slice_of (repeat xaa 23 ++ [x02])));
    reflexivity.
Defined.

(** X12: [ComputeSigningRoot] and [computeForkDataRoot] never read the
    configuration: in two worlds with the same engine, whatever their
    configurations, each hands the engine the same values and returns the
    same results. *)
Theorem signing_root_and_fork_data_root_ignore_config (Other error : Type)
  (w1 w2 : world Other error) (object : iface Other) (dom version root : slice) :
  (forall v, ssz_HashTreeRoot w1 v = ssz_HashTreeRoot w2 v) ->
  (engine_inputs w1 (ComputeSigningRoot object dom)
   = engine_inputs w2 (ComputeSigningRoot object dom) /\
   run w1 (ComputeSigningRoot object dom)
   = run w2 (ComputeSigningRoot object dom)) /\
  (engine_inputs w1 (computeForkDataRoot version root)
   = engine_inputs w2 (computeForkDataRoot version root) /\
   run w1 (computeForkDataRoot version root)
   = run w2 (computeForkDataRoot version root)).
Proof.
  intros Hengine.
  rewrite !ComputeSigningRoot_inputs, !ComputeSigningRoot_run,
    !computeForkDataRoot_inputs, !computeForkDataRoot_run.
  rewrite (Hengine object), (Hengine (ForkDataPtr (mkForkData version root))).
  destruct (ssz_HashTreeRoot w2 object) as [objRoot [e |]];
    rewrite ?Hengine; repeat split.
Qed.

Lemma signing_root_and_fork_data_root_ignore_config_witness :
  let other :=
    mkWorld Sample.engine
      {| GenesisForkVersion := nil_slice;
         ZeroHash := Sample.pack [x01] |} in
  (engine_inputs Sample.w (ComputeSigningRoot (OtherValue 3) Sample.root31)
   = engine_inputs other (ComputeSigningRoot (OtherValue 3) Sample.root31) /\
   run Sample.w (ComputeSigningRoot (OtherValue 3) Sample.root31)
   = run other (ComputeSigningRoot (OtherValue 3) Sample.root31)) /\
  (engine_inputs Sample.w (computeForkDataRoot Sample.forkVersion5 nil_slice)
   = engine_inputs other (computeForkDataRoot Sample.forkVersion5 nil_slice) /\
   run Sample.w (computeForkDataRoot Sample.forkVersion5 nil_slice)
   = run other (computeForkDataRoot Sample.forkVersion5 nil_slice)).
Proof.
  intros other.
  apply (signing_root_and_fork_data_root_ignore_config nat string Sample.w other
           (OtherValue 3) Sample.root31 Sample.forkVersion5 nil_slice).
  intros v. reflexivity.
Defined.

(** ** The two operations together *)

(** X13: a domain that [ComputeDomain] returned with a nil error, given to
    [ComputeSigningRoot] with an object the engine can hash, yields a container
    whose two fields are both non-nil slices of 32 bytes, the domain field
    starting with the domain type; the signing root returned is the engine's
    answer for that container. *)
Theorem ComputeSigningRoot_with_computed_domain (Other error : Type)
  (w : world Other error) (domainType : array DomainByteLength)
  (forkVersion genesisValidatorsRoot : slice) (d : slice)
  (object : iface Other) (objRoot : array 32) :
  run w (ComputeDomain domainType forkVersion genesisValidatorsRoot)
  = Returns (d, None) ->
  ssz_HashTreeRoot w object = (objRoot, None) ->
  let container := {| ObjectRoot := array_slice objRoot; Domain := d |} in
  engine_inputs w (ComputeSigningRoot object d)
  = [object; SigningRootPtr container] /\
  run w (ComputeSigningRoot object d)
  = Returns (ssz_HashTreeRoot w (SigningRootPtr container)) /\
  len (ObjectRoot container) = 32 /\
  len (Domain container) = 32 /\
  is_nil (Domain container) = false /\
  firstn 4 (bytes (Domain container)) = Vector.to_list domainType.
Proof.
  intros Hdom Hobj container.
  rewrite ComputeSigningRoot_inputs, ComputeSigningRoot_run, Hobj.
  split; [reflexivity |]. split; [reflexivity |].
  split; [apply len_array_slice |].
  rewrite ComputeDomain_run in Hdom.
  destruct (ssz_HashTreeRoot w _) as [root [e |]]; [discriminate Hdom |].
  assert (Hd : d = slice_of (Vector.to_list domainType
                             ++ firstn 28 (Vector.to_list root)))
    by congruence.
  assert (Hdt : List.length (Vector.to_list domainType) = 4)
    by apply Vector.length_to_list.
  subst container. cbn [Domain]. rewrite Hd. unfold len. cbn [bytes is_nil].
  split; [| split; [reflexivity |]].
  - rewrite length_app, length_firstn, Hdt, Vector.length_to_list. reflexivity.
  - rewrite firstn_app, Hdt, firstn_all2 by lia.
    cbn [Nat.sub firstn]. apply app_nil_r.
Qed.

Lemma ComputeSigningRoot_with_computed_domain_witness :
  let d := slice_of ([x01; x00; x00; x00] ++ [x46; x00; x00; x00; x00]
                     ++ repeat x00 23) in
  let container :=
    {| ObjectRoot := array_slice (Sample.pack (x4f :: repeat x11 3));
       Domain := d |} in
  engine_inputs Sample.w (ComputeSigningRoot (OtherValue 3) d)
  = [OtherValue 3; SigningRootPtr container] /\
  run Sample.w (ComputeSigningRoot (OtherValue 3) d)
  = Returns (Sample.engine (SigningRootPtr container)) /\
  len (ObjectRoot container) = 32 /\
  len (Domain container) = 32 /\
  is_nil (Domain container) = false /\
  firstn 4 (bytes (Domain container)) = Vector.to_list Sample.domainType.
Proof.
  intros d container.
  apply (ComputeSigningRoot_with_computed_domain nat string Sample.w
           Sample.domainType nil_slice nil_slice d (OtherValue 3)
           (Sample.pack (x4f :: repeat x11 3))); reflexivity.
Defined.
